(** * Paytm payment-gateway relay: a shallow embedding of [src/index.js]

    The source file holds three modules: the first [server.js] (three
    Express routes), [paytm.config.js], and a second [server.js] that is a
    near copy of the first.  The routes are embedded as functions that take
    the request, the process environment and the outside world (clock,
    random source, checksum library, HTTP client) and return the response
    sent to the caller together with the list of interactions they had with
    that world, in program order. *)

From Stdlib Require Import ZArith QArith Qround Ascii String List Lia.
From Stdlib Require Import DecimalString DecimalN DecimalPos DecimalZ DecimalFacts.
From stdpp Require Import base option list strings gmap.

Local Open Scope Z_scope.
Local Open Scope string_scope.

(** ** JavaScript values

    The values that reach the routes come out of [JSON.parse] (request
    bodies, gateway responses) or of the form parser, so they are JSON
    trees plus [undefined].  Numbers are kept with an integral value; objects
    are association lists in insertion order, which is the order
    [JSON.stringify] prints them in.  An object never holds the same key
    twice; lookup takes the first binding. *)

#[warnings="-register-all"]
Inductive JsVal : Type :=
| VUndef
| VNull
| VBool (b : bool)
| VNum (n : Z)
| VStr (s : string)
| VArr (items : list JsVal)
| VObj (props : list (string * JsVal)).

Abbreviation Obj := (list (string * JsVal)).

(** What a [throw] carries, as far as the routes look at it: [err.message]
    and [err?.response?.data] ([undefined] when the error has no response). *)
Record JsError := { message : string; response_data : JsVal }.

Definition TypeError (msg : string) : JsError :=
  {| message := msg; response_data := VUndef |}.

Inductive Result (A : Type) : Type :=
| Ok (a : A)
| Thrown (e : JsError).
Arguments Ok {A} a.
Arguments Thrown {A} e.

(** [!!v] *)
Definition truthy (v : JsVal) : bool :=
  match v with
  | VUndef | VNull => false
  | VBool b => b
  | VNum n => negb (n =? 0)%Z
  | VStr s => negb (String.eqb s EmptyString)
  | VArr _ | VObj _ => true
  end.

Definition nullish (v : JsVal) : bool :=
  match v with
  | VUndef | VNull => true
  | _ => false
  end.

(** Own property of an object. *)
Fixpoint own (o : Obj) (k : string) : option JsVal :=
  match o with
  | [] => None
  | (k', v) :: o' => if String.eqb k' k then Some v else own o' k
  end.

(** [o.k] on an object: a missing property reads as [undefined].  (The
    names read in this program are on no prototype.) *)
Definition field (o : Obj) (k : string) : JsVal :=
  default VUndef (own o k).

(** [delete o.k] *)
Definition delete_prop (o : Obj) (k : string) : Obj :=
  filter (fun kv => negb (String.eqb (fst kv) k)) o.

Definition typeof_nullish (v : JsVal) : string :=
  match v with VNull => "null" | _ => "undefined" end.

(** [v.k]: throws on [undefined] and [null]; primitives and arrays have none
    of the names this program reads ([body], [resultInfo], [resultStatus],
    [txnToken]). *)
Definition get (v : JsVal) (k : string) : Result JsVal :=
  match v with
  | VUndef | VNull =>
      Thrown (TypeError ("Cannot read properties of " +:+ typeof_nullish v
                         +:+ " (reading '" +:+ k +:+ "')"))
  | VObj o => Ok (field o k)
  | _ => Ok VUndef
  end.

(** [v?.k] *)
Definition get_opt (v : JsVal) (k : string) : JsVal :=
  match v with
  | VObj o => field o k
  | _ => VUndef
  end.

(** [v === w] for a string [w] *)
Definition strict_eq_string (v : JsVal) (w : string) : bool :=
  match v with
  | VStr s => String.eqb s w
  | _ => false
  end.

(** [a || b] *)
Definition js_or (a b : JsVal) : JsVal := if truthy a then a else b.

(** ** Numbers and strings *)

(** [Number.prototype.toString] on an integral value (decimal digits, as
    JavaScript prints integers of magnitude below 10^21). *)
Definition Number_toString (n : Z) : string :=
  NilZero.string_of_int (Z.to_int n).

(** The abstract operation ToString.  An object converts through its
    [toString] method; an own property of that name, which in a JSON tree is
    never a function, makes the conversion throw. *)
Fixpoint ToString (v : JsVal) : Result string :=
  match v with
  | VUndef => Ok "undefined"
  | VNull => Ok "null"
  | VBool b => Ok (if b then "true" else "false")
  | VNum n => Ok (Number_toString n)
  | VStr s => Ok s
  | VArr items =>
      (fix join (l : list JsVal) : Result string :=
         match l with
         | [] => Ok EmptyString
         | x :: rest =>
             match (if nullish x then Ok EmptyString else ToString x) with
             | Thrown e => Thrown e
             | Ok s =>
                 match rest with
                 | [] => Ok s
                 | _ => match join rest with
                        | Thrown e => Thrown e
                        | Ok r => Ok (s +:+ "," +:+ r)
                        end
                 end
             end
         end) items
  | VObj o =>
      match own o "toString" with
      | Some _ => Thrown (TypeError "Cannot convert object to primitive value")
      | None => Ok "[object Object]"
      end
  end.

(** [x.toString()], where [x] is the variable named [name]. *)
Definition call_toString (name : string) (v : JsVal) : Result string :=
  match v with
  | VUndef | VNull =>
      Thrown (TypeError ("Cannot read properties of " +:+ typeof_nullish v
                         +:+ " (reading 'toString')"))
  | VObj o =>
      match own o "toString" with
      | Some _ => Thrown (TypeError (name +:+ ".toString is not a function"))
      | None => Ok "[object Object]"
      end
  | _ => ToString v
  end.

(** *** [JSON.stringify] *)

Definition hex_digit (n : N) : ascii :=
  ascii_of_N (if (n <? 10)%N then 48 + n else 87 + n)%N.

Definition dquote : ascii := ascii_of_N 34.

Definition quote_char (c : ascii) : string :=
  let n := N_of_ascii c in
  if (n =? 34)%N then String "\"%char (String dquote EmptyString)
  else if (n =? 92)%N then "\\"
  else if (n =? 8)%N then "\b"
  else if (n =? 12)%N then "\f"
  else if (n =? 10)%N then "\n"
  else if (n =? 13)%N then "\r"
  else if (n =? 9)%N then "\t"
  else if (n <? 32)%N then
    "\u00" +:+ String (hex_digit (n / 16)) (String (hex_digit (n mod 16)) EmptyString)
  else String c EmptyString.

Fixpoint quote_chars (s : string) : string :=
  match s with
  | EmptyString => EmptyString
  | String c s' => quote_char c +:+ quote_chars s'
  end.

Definition JSON_quote (s : string) : string :=
  String dquote (quote_chars s +:+ String dquote EmptyString).

(** [JSON.stringify v] for a JSON tree [v].  A property whose value is
    [undefined] is left out of an object; inside an array [undefined] prints
    as [null]. *)
Fixpoint JSON_stringify (v : JsVal) : string :=
  match v with
  | VUndef | VNull => "null"
  | VBool b => if b then "true" else "false"
  | VNum n => Number_toString n
  | VStr s => JSON_quote s
  | VArr items => "[" +:+ String.concat "," (List.map JSON_stringify items) +:+ "]"
  | VObj o =>
      "{" +:+ String.concat ","
                (List.flat_map
                   (fun kv =>
                      match kv with
                      | (_, VUndef) => []
                      | (k, x) => [JSON_quote k +:+ ":" +:+ JSON_stringify x]
                      end) o)
          +:+ "}"
  end.

(** ** The outside world *)

(** [process.env]: every value is a string. *)
Abbreviation Env := (gmap string string).

(** A variable of the environment as a JavaScript value. *)
Definition js_of_env (x : option string) : JsVal :=
  match x with Some s => VStr s | None => VUndef end.

(** A variable of the environment inside a template literal. *)
Definition template_of_env (x : option string) : string :=
  match x with Some s => s | None => "undefined" end.

(** [process.env.X || fallback] *)
Definition env_or (x : option string) (fallback : string) : string :=
  match x with
  | Some s => if String.eqb s EmptyString then fallback else s
  | None => fallback
  end.

(** *** [paytm.config.js] *)

Record PaytmConfig := {
  mid : option string;
  key : option string;
  website : option string;
  callbackUrl : option string;
  industryTypeId : string;
  channelId : string;
  host : string
}.

Definition paytmConfig (env : Env) : PaytmConfig :=
  let isProd := bool_decide (env !! "PAYTM_ENVIRONMENT" = Some "PROD") in
  {| mid := env !! "PAYTM_MID";
     key := env !! "PAYTM_MERCHANT_KEY";
     website := env !! "PAYTM_WEBSITE";
     callbackUrl := env !! "PAYTM_CALLBACK_URL";
     industryTypeId := env_or (env !! "PAYTM_INDUSTRY_TYPE_ID") "Retail";
     channelId := env_or (env !! "PAYTM_CHANNEL_ID") "WEB";
     host := if isProd then "https://securegw.paytm.in"
             else "https://securegw-stage.paytm.in" |}.

(** *** Collaborators

    The checksum library ([paytmchecksum]), the HTTP client ([axios]), the
    clock and the random source are not part of the program.  A [World] fixes
    what each of them answers during one request; every call may throw.
    [Math_random] is the number [Math.random()] returns, a rational in
    [0, 1), and the product with 1000 is taken exactly. *)

Record AxiosResponse := { data : JsVal }.

Record World := {
  Date_now : Z;
  Math_random : Q;
  generateSignature : string -> option string -> Result string;
  verifySignature : Obj -> option string -> JsVal -> Result bool;
  axios_post : string -> JsVal -> JsVal -> Result AxiosResponse
}.

Inductive LogLevel := log | warn | error.

(** One interaction with the world, with the answer it got. *)
Inductive Event :=
| Console (level : LogLevel) (args : list JsVal)
| GenerateSignature (params : string) (k : option string) (out : Result string)
| VerifySignature (params : Obj) (k : option string) (checksum : JsVal)
                  (out : Result bool)
| AxiosPost (url : string) (payload : JsVal) (config : JsVal)
            (out : Result AxiosResponse).

(** ** Computations: exceptions and a trace of interactions *)

Definition M (A : Type) : Type := Result A * list Event.

Definition ret {A} (a : A) : M A := (Ok a, []).

Definition throw {A} (e : JsError) : M A := (Thrown e, []).

Definition bind {A B} (m : M A) (f : A -> M B) : M B :=
  match m with
  | (Ok a, t) => let (r, t') := f a in (r, (t ++ t')%list)
  | (Thrown e, t) => (Thrown e, t)
  end.

Definition lift {A} (r : Result A) : M A := (r, []).

Definition emit (ev : Event) : M unit := (Ok tt, [ev]).

Declare Scope js_scope.
Delimit Scope js_scope with js.
Notation "'do' x <- m ; k" := (bind m (fun x => k))
  (at level 10, x name, m at level 100, k at level 200) : js_scope.
Local Open Scope js_scope.

(** [try { m } catch (err) { h err }], where the handler does not throw. *)
Definition try_catch {A} (m : M A) (h : JsError -> A * list Event)
  : A * list Event :=
  match m with
  | (Ok a, t) => (a, t)
  | (Thrown e, t) => let (a, t') := h e in (a, (t ++ t')%list)
  end.

Definition console (level : LogLevel) (args : list JsVal) : M unit :=
  emit (Console level args).

(** ** Requests and responses *)

(** [req.body] as the body parsers leave it: an object. *)
Record Request := { body : Obj }.

Inductive Payload :=
| Json (v : JsVal)
| Text (s : string).

Record Response := { status : Z; sent : Payload }.

(** [res.status(code).json(v)] *)
Definition res_json (code : Z) (v : JsVal) : Response :=
  {| status := code; sent := Json v |}.

(** [res.status(code).send(s)] *)
Definition res_send (code : Z) (s : string) : Response :=
  {| status := code; sent := Text s |}.

(** A property of the JSON body of a response; [undefined] when the response
    is plain text. *)
Definition sent_field (r : Response) (k : string) : JsVal :=
  match sent r with
  | Json v => get_opt v k
  | Text _ => VUndef
  end.

(** ** The first [server.js] *)

Module Server1.
Section routes.

Variable env : Env.
Variable world : World.

(** [Math.floor(Math.random() * 1000)] *)
Definition random_below_1000 : Z := Qfloor (Math_random world * 1000).

Definition generateOrderId : string :=
  "ORDER_" +:+ Number_toString (Date_now world) +:+ "_"
  +:+ Number_toString random_below_1000.

Definition json_headers : JsVal :=
  VObj [("headers", VObj [("Content-Type", VStr "application/json")])].

(** [POST /api/paytm/create-order] *)
Definition create_order (req : Request) : Response * list Event :=
  try_catch
    (let amount := field (body req) "amount" in
     let customerId := field (body req) "customerId" in
     if negb (truthy amount) || negb (truthy customerId) then
       ret (res_json 400
              (VObj [("error", VStr "amount and customerId are required")]))
     else
       let orderId := generateOrderId in
       do value <- lift (call_toString "amount" amount);
       do custId <- lift (call_toString "customerId" customerId);
       let paytmParams :=
         VObj [("requestType", VStr "Payment");
               ("mid", js_of_env (mid (paytmConfig env)));
               ("websiteName", js_of_env (website (paytmConfig env)));
               ("orderId", VStr orderId);
               ("callbackUrl", js_of_env (callbackUrl (paytmConfig env)));
               ("txnAmount", VObj [("value", VStr value);
                                   ("currency", VStr "INR")]);
               ("userInfo", VObj [("custId", VStr custId)])] in
       let params := JSON_stringify paytmParams in
       let signed := generateSignature world params (key (paytmConfig env)) in
       do _ <- emit (GenerateSignature params (key (paytmConfig env)) signed);
       do checksum <- lift signed;
       let requestBody :=
         VObj [("body", paytmParams);
               ("head", VObj [("signature", VStr checksum)])] in
       let url :=
         host (paytmConfig env)
         +:+ "/theia/api/v1/initiateTransaction?mid="
         +:+ template_of_env (mid (paytmConfig env))
         +:+ "&orderId=" +:+ orderId in
       let posted := axios_post world url requestBody json_headers in
       do _ <- emit (AxiosPost url requestBody json_headers posted);
       do response <- lift posted;
       let data := data response in
       do rejected <-
         (do b <- lift (get data "body");
          if negb (truthy b) then ret true
          else
            do resultInfo <- lift (get b "resultInfo");
            if negb (truthy resultInfo) then ret true
            else
              do resultStatus <- lift (get resultInfo "resultStatus");
              ret (negb (strict_eq_string resultStatus "S")));
       if rejected : bool then
         do _ <- console error [VStr "Initiate Transaction Failed:"; data];
         ret (res_json 400
                (VObj [("error", VStr "Failed to initiate transaction");
                       ("paytmResponse", data)]))
       else
         do b <- lift (get data "body");
         do txnToken <- lift (get b "txnToken");
         ret (res_json 200
                (VObj [("mid", js_of_env (mid (paytmConfig env)));
                       ("orderId", VStr orderId);
                       ("amount", amount);
                       ("txnToken", txnToken);
                       ("callbackUrl", js_of_env (callbackUrl (paytmConfig env)));
                       ("env", js_of_env (env !! "PAYTM_ENVIRONMENT"))])))
    (fun err =>
       (res_json 500
          (VObj [("error", VStr "Something went wrong while creating order");
                 ("details", VStr (message err))]),
        [Console error [VStr "create-order error:";
                        js_or (response_data err) (VStr (message err))]])).

(** [POST /api/paytm/callback] *)
Definition callback (req : Request) : Response * list Event :=
  try_catch
    (let receivedData := body req in
     do _ <- console log [VStr "Paytm callback data:"; VObj receivedData];
     let paytmChecksum := field receivedData "CHECKSUMHASH" in
     let receivedData := delete_prop receivedData "CHECKSUMHASH" in
     do isValidChecksum <-
       (if truthy paytmChecksum then
          let verified :=
            verifySignature world receivedData (key (paytmConfig env))
              paytmChecksum in
          do _ <- emit (VerifySignature receivedData (key (paytmConfig env))
                          paytmChecksum verified);
          lift verified
        else ret true);
     if negb isValidChecksum then
       do _ <- console warn [VStr "❌ Invalid checksum in callback"];
       ret (res_send 400 "Checksum mismatched")
     else
       ret (res_send 200
              "Paytm callback received. You can close this window and return to the app."))
    (fun err =>
       (res_send 500 "Internal Server Error",
        [Console error [VStr "callback error:"; VStr (message err)]])).

(** [POST /api/paytm/status] *)
Definition status_check (req : Request) : Response * list Event :=
  try_catch
    (let orderId := field (body req) "orderId" in
     if negb (truthy orderId) then
       ret (res_json 400 (VObj [("error", VStr "orderId is required")]))
     else
       let body :=
         VObj [("mid", js_of_env (mid (paytmConfig env)));
               ("orderId", orderId)] in
       let params := JSON_stringify body in
       let signed := generateSignature world params (key (paytmConfig env)) in
       do _ <- emit (GenerateSignature params (key (paytmConfig env)) signed);
       do checksum <- lift signed;
       let statusRequest :=
         VObj [("body", body);
               ("head", VObj [("signature", VStr checksum)])] in
       let url := host (paytmConfig env) +:+ "/v3/order/status" in
       let posted := axios_post world url statusRequest json_headers in
       do _ <- emit (AxiosPost url statusRequest json_headers posted);
       do response <- lift posted;
       let data := data response in
       let resultInfo := get_opt (get_opt data "body") "resultInfo" in
       let txnStatus := get_opt resultInfo "resultStatus" in
       do paytmResponse <- lift (get data "body");
       ret (res_json 200
              (VObj [("orderId", orderId);
                     ("status", txnStatus);
                     ("resultInfo", resultInfo);
                     ("paytmResponse", paytmResponse)])))
    (fun err =>
       (res_json 500
          (VObj [("error", VStr "Something went wrong while checking status");
                 ("details", VStr (message err))]),
        [Console error [VStr "status error:";
                        js_or (response_data err) (VStr (message err))]])).

(** [GET /], the health check *)
Definition health : Response * list Event :=
  (res_send 200 "✅ Paytm PG backend is running.", []).

(** [process.env.PORT || 4000] *)
Definition PORT : JsVal := js_or (js_of_env (env !! "PORT")) (VNum 4000).

End routes.
End Server1.

(** ** The second [server.js]

    Its create-order and status routes repeat the first file's with other
    wording in the messages; the callback route starts from the opposite
    default. *)

Module Server2.
Section routes.

Variable env : Env.
Variable world : World.

(** [Math.floor(Math.random() * 1000)] *)
Definition random_below_1000 : Z := Qfloor (Math_random world * 1000).

Definition generateOrderId : string :=
  "ORDER_" +:+ Number_toString (Date_now world) +:+ "_"
  +:+ Number_toString random_below_1000.

Definition json_headers : JsVal :=
  VObj [("headers", VObj [("Content-Type", VStr "application/json")])].

(** [POST /api/paytm/create-order] *)
Definition create_order (req : Request) : Response * list Event :=
  try_catch
    (let amount := field (body req) "amount" in
     let customerId := field (body req) "customerId" in
     if negb (truthy amount) || negb (truthy customerId) then
       ret (res_json 400
              (VObj [("error", VStr "amount and customerId required")]))
     else
       let orderId := generateOrderId in
       do value <- lift (call_toString "amount" amount);
       do custId <- lift (call_toString "customerId" customerId);
       let body :=
         VObj [("requestType", VStr "Payment");
               ("mid", js_of_env (mid (paytmConfig env)));
               ("websiteName", js_of_env (website (paytmConfig env)));
               ("orderId", VStr orderId);
               ("callbackUrl", js_of_env (callbackUrl (paytmConfig env)));
               ("txnAmount", VObj [("value", VStr value);
                                   ("currency", VStr "INR")]);
               ("userInfo", VObj [("custId", VStr custId)])] in
       let params := JSON_stringify body in
       let signed := generateSignature world params (key (paytmConfig env)) in
       do _ <- emit (GenerateSignature params (key (paytmConfig env)) signed);
       do checksum <- lift signed;
       let initTxnRequest :=
         VObj [("body", body);
               ("head", VObj [("signature", VStr checksum)])] in
       let url :=
         host (paytmConfig env)
         +:+ "/theia/api/v1/initiateTransaction?mid="
         +:+ template_of_env (mid (paytmConfig env))
         +:+ "&orderId=" +:+ orderId in
       let posted := axios_post world url initTxnRequest json_headers in
       do _ <- emit (AxiosPost url initTxnRequest json_headers posted);
       do response <- lift posted;
       let data := data response in
       do rejected <-
         (do b <- lift (get data "body");
          if negb (truthy b) then ret true
          else
            do resultInfo <- lift (get b "resultInfo");
            if negb (truthy resultInfo) then ret true
            else
              do resultStatus <- lift (get resultInfo "resultStatus");
              ret (negb (strict_eq_string resultStatus "S")));
       if rejected : bool then
         do _ <- console error [VStr "Paytm initiate txn failed:"; data];
         ret (res_json 400
                (VObj [("error", VStr "Failed to initiate transaction");
                       ("paytmResponse", data)]))
       else
         do b <- lift (get data "body");
         do txnToken <- lift (get b "txnToken");
         ret (res_json 200
                (VObj [("mid", js_of_env (mid (paytmConfig env)));
                       ("orderId", VStr orderId);
                       ("amount", amount);
                       ("txnToken", txnToken);
                       ("callbackUrl", js_of_env (callbackUrl (paytmConfig env)));
                       ("env", js_of_env (env !! "PAYTM_ENVIRONMENT"))])))
    (fun err =>
       (res_json 500
          (VObj [("error", VStr "Something went wrong while creating order");
                 ("details", VStr (message err))]),
        [Console error [VStr "create-order error:";
                        js_or (response_data err) (VStr (message err))]])).

(** [POST /api/paytm/status] *)
Definition status_check (req : Request) : Response * list Event :=
  try_catch
    (let orderId := field (body req) "orderId" in
     if negb (truthy orderId) then
       ret (res_json 400 (VObj [("error", VStr "orderId required")]))
     else
       let body :=
         VObj [("mid", js_of_env (mid (paytmConfig env)));
               ("orderId", orderId)] in
       let params := JSON_stringify body in
       let signed := generateSignature world params (key (paytmConfig env)) in
       do _ <- emit (GenerateSignature params (key (paytmConfig env)) signed);
       do checksum <- lift signed;
       let statusRequest :=
         VObj [("body", body);
               ("head", VObj [("signature", VStr checksum)])] in
       let url := host (paytmConfig env) +:+ "/v3/order/status" in
       let posted := axios_post world url statusRequest json_headers in
       do _ <- emit (AxiosPost url statusRequest json_headers posted);
       do response <- lift posted;
       let data := data response in
       let resultInfo := get_opt (get_opt data "body") "resultInfo" in
       let txnStatus := get_opt resultInfo "resultStatus" in
       do paytmResponse <- lift (get data "body");
       ret (res_json 200
              (VObj [("orderId", orderId);
                     ("status", txnStatus);
                     ("resultInfo", resultInfo);
                     ("paytmResponse", paytmResponse)])))
    (fun err =>
       (res_json 500
          (VObj [("error", VStr "Something went wrong while checking status");
                 ("details", VStr (message err))]),
        [Console error [VStr "status error:";
                        js_or (response_data err) (VStr (message err))]])).

(** [process.env.PORT || 4000] *)
Definition port : JsVal := js_or (js_of_env (env !! "PORT")) (VNum 4000).

(** [POST /api/paytm/callback] *)
Definition callback (req : Request) : Response * list Event :=
  try_catch
    (let receivedData := body req in
     do _ <- console log [VStr "Paytm callback received:"; VObj receivedData];
     let paytmChecksum := field receivedData "CHECKSUMHASH" in
     let receivedData := delete_prop receivedData "CHECKSUMHASH" in
     do isValidChecksum <-
       (if truthy paytmChecksum then
          let verified :=
            verifySignature world receivedData (key (paytmConfig env))
              paytmChecksum in
          do _ <- emit (VerifySignature receivedData (key (paytmConfig env))
                          paytmChecksum verified);
          lift verified
        else ret false);
     if negb isValidChecksum then
       do _ <- console warn [VStr "Invalid checksum in callback"];
       ret (res_send 400 "Checksum mismatched")
     else
       let orderId := field receivedData "ORDERID" in
       ret (res_send 200
              "Callback received. Please wait while we verify payment."))
    (fun err =>
       (res_send 500 "Internal Server Error",
        [Console error [VStr "callback error:"; VStr (message err)]])).

End routes.
End Server2.

(** ** Sample worlds *)

Module Sample.

Definition env : Env :=
  <["PAYTM_MID" := "MID123"]>
    (<["PAYTM_MERCHANT_KEY" := "0123456789abcdef"]>
       (<["PAYTM_WEBSITE" := "WEBSTAGING"]>
          (<["PAYTM_CALLBACK_URL" := "https://shop.example/api/paytm/callback"]>
             (<["PAYTM_ENVIRONMENT" := "STAGE"]> ∅)))).

(** A checksum library that answers with the key glued to the payload and
    accepts exactly the checksum ["good"]. *)
Definition sign (params : string) (k : option string) : Result string :=
  Ok (template_of_env k +:+ "|" +:+ params).

Definition verify (params : Obj) (k : option string) (checksum : JsVal)
  : Result bool :=
  Ok (strict_eq_string checksum "good").

(** A world whose gateway answers every request with [out]. *)
Definition world (out : Result AxiosResponse) : World :=
  {| Date_now := 1700000000000;
     Math_random := 1234 # 10000;
     generateSignature := sign;
     verifySignature := verify;
     axios_post := fun _ _ _ => out |}.

Definition accepted (token : JsVal) : Result AxiosResponse :=
  Ok {| data :=
          VObj [("head", VObj []);
                ("body", VObj [("resultInfo",
                                VObj [("resultStatus", VStr "S");
                                      ("resultCode", VStr "0000")]);
                               ("txnToken", token)])] |}.

Definition order : Request :=
  {| body := [("amount", VNum 100); ("customerId", VStr "cust1")] |}.

End Sample.

(** * Vocabulary of the properties *)

Definition is_digit (c : ascii) : bool :=
  ((48 <=? N_of_ascii c) && (N_of_ascii c <=? 57))%N.

Fixpoint digits (s : string) : bool :=
  match s with
  | EmptyString => true
  | String c s' => is_digit c && digits s'
  end.

(** One or more decimal digits. *)
Definition is_number (s : string) : bool :=
  negb (String.eqb s EmptyString) && digits s.

(** What the runtime promises: [Math.random()] lies in [0, 1) and the clock
    reads a time value, here one not before the epoch (time values end at
    8.64e15 milliseconds). *)
Definition runtime_ok (w : World) : Prop :=
  (0 <= Math_random w /\ Math_random w < 1)%Q /\
  0 <= Date_now w <= 8640000000000000.

(** The gateway reports success: its response has a body with a result-info
    substructure whose [resultStatus] is ["S"]. *)
Definition gateway_accepts (d : JsVal) : bool :=
  strict_eq_string
    (get_opt (get_opt (get_opt d "body") "resultInfo") "resultStatus") "S".

(** The transaction token of a gateway response, [undefined] when it has
    none. *)
Definition gateway_token (d : JsVal) : JsVal :=
  get_opt (get_opt d "body") "txnToken".

(** What goes to the gateway: a body and the signature in the head. *)
Definition envelope (b : JsVal) (sig : string) : JsVal :=
  VObj [("body", b); ("head", VObj [("signature", VStr sig)])].

Section create_order_runs.

Variable env : Env.
Variable w : World.
Variable req : Request.

Let amount := field (body req) "amount".
Let customerId := field (body req) "customerId".
Let cfg := paytmConfig env.
Let orderId := Server1.generateOrderId w.

Definition initiate_params (value custId : string) : JsVal :=
  VObj [("requestType", VStr "Payment");
        ("mid", js_of_env (mid cfg));
        ("websiteName", js_of_env (website cfg));
        ("orderId", VStr orderId);
        ("callbackUrl", js_of_env (callbackUrl cfg));
        ("txnAmount", VObj [("value", VStr value); ("currency", VStr "INR")]);
        ("userInfo", VObj [("custId", VStr custId)])].

Definition initiate_url : string :=
  host cfg +:+ "/theia/api/v1/initiateTransaction?mid="
  +:+ template_of_env (mid cfg) +:+ "&orderId=" +:+ orderId.

Definition order_created (token : JsVal) : Response :=
  res_json 200
    (VObj [("mid", js_of_env (mid cfg));
           ("orderId", VStr orderId);
           ("amount", amount);
           ("txnToken", token);
           ("callbackUrl", js_of_env (callbackUrl cfg));
           ("env", js_of_env (env !! "PAYTM_ENVIRONMENT"))]).

Definition order_rejected (d : JsVal) : Response :=
  res_json 400
    (VObj [("error", VStr "Failed to initiate transaction");
           ("paytmResponse", d)]).

Definition order_failed (e : JsError) : Response :=
  res_json 500
    (VObj [("error", VStr "Something went wrong while creating order");
           ("details", VStr (message e))]).

Definition order_failure_logged (e : JsError) : Event :=
  Console error [VStr "create-order error:";
                 js_or (response_data e) (VStr (message e))].

Definition order_missing_input : Response :=
  res_json 400 (VObj [("error", VStr "amount and customerId are required")]).

(** What follows the gateway's answer. *)
Inductive create_order_answered :
  Result AxiosResponse -> Response * list Event -> Prop :=
| co_post_throws e :
    create_order_answered (Thrown e) (order_failed e, [order_failure_logged e])
| co_no_response r e :
    get (data r) "body" = Thrown e ->
    create_order_answered (Ok r) (order_failed e, [order_failure_logged e])
| co_rejected r :
    nullish (data r) = false ->
    gateway_accepts (data r) = false ->
    create_order_answered (Ok r)
      (order_rejected (data r),
       [Console error [VStr "Initiate Transaction Failed:"; data r]])
| co_accepted r :
    gateway_accepts (data r) = true ->
    create_order_answered (Ok r) (order_created (gateway_token (data r)), []).

(** What follows the signature. *)
Inductive create_order_signed (params : JsVal) :
  Result string -> Response * list Event -> Prop :=
| co_sign_throws e :
    create_order_signed params (Thrown e)
      (order_failed e,
       [GenerateSignature (JSON_stringify params) (key cfg) (Thrown e);
        order_failure_logged e])
| co_posted sig out res rest :
    axios_post w initiate_url (envelope params sig) Server1.json_headers = out ->
    create_order_answered out (res, rest) ->
    create_order_signed params (Ok sig)
      (res,
       GenerateSignature (JSON_stringify params) (key cfg) (Ok sig)
       :: AxiosPost initiate_url (envelope params sig) Server1.json_headers out
       :: rest).

(** Every way a create-order request can go, from the first test to the
    response. *)
Inductive create_order_run : Response * list Event -> Prop :=
| co_missing_input :
    truthy amount && truthy customerId = false ->
    create_order_run (order_missing_input, [])
| co_amount_throws e :
    truthy amount && truthy customerId = true ->
    call_toString "amount" amount = Thrown e ->
    create_order_run (order_failed e, [order_failure_logged e])
| co_customer_throws value e :
    truthy amount && truthy customerId = true ->
    call_toString "amount" amount = Ok value ->
    call_toString "customerId" customerId = Thrown e ->
    create_order_run (order_failed e, [order_failure_logged e])
| co_signed value custId out :
    truthy amount && truthy customerId = true ->
    call_toString "amount" amount = Ok value ->
    call_toString "customerId" customerId = Ok custId ->
    generateSignature w (JSON_stringify (initiate_params value custId)) (key cfg)
    = out ->
    forall r, create_order_signed (initiate_params value custId) out r ->
    create_order_run r.

End create_order_runs.

(** The gateway's raw result-info and status code, [undefined] when the
    response has none. *)
Definition result_info (d : JsVal) : JsVal :=
  get_opt (get_opt d "body") "resultInfo".

Definition raw_status (d : JsVal) : JsVal :=
  get_opt (result_info d) "resultStatus".

Section status_check_runs.

Variable env : Env.
Variable w : World.
Variable req : Request.

Let orderId := field (body req) "orderId".
Let cfg := paytmConfig env.

Definition status_query : JsVal :=
  VObj [("mid", js_of_env (mid cfg)); ("orderId", orderId)].

Definition status_url : string := host cfg +:+ "/v3/order/status".

Definition status_found (d : JsVal) : Response :=
  res_json 200
    (VObj [("orderId", orderId);
           ("status", raw_status d);
           ("resultInfo", result_info d);
           ("paytmResponse", get_opt d "body")]).

Definition status_failed (e : JsError) : Response :=
  res_json 500
    (VObj [("error", VStr "Something went wrong while checking status");
           ("details", VStr (message e))]).

Definition status_failure_logged (e : JsError) : Event :=
  Console error [VStr "status error:";
                 js_or (response_data e) (VStr (message e))].

Definition status_missing_input : Response :=
  res_json 400 (VObj [("error", VStr "orderId is required")]).

(** What follows the gateway's answer. *)
Inductive status_answered :
  Result AxiosResponse -> Response * list Event -> Prop :=
| st_post_throws e :
    status_answered (Thrown e) (status_failed e, [status_failure_logged e])
| st_no_response r e :
    get (data r) "body" = Thrown e ->
    status_answered (Ok r) (status_failed e, [status_failure_logged e])
| st_found r :
    nullish (data r) = false ->
    status_answered (Ok r) (status_found (data r), []).

(** Every way a status-check request can go. *)
Inductive status_check_run : Response * list Event -> Prop :=
| st_missing_input :
    truthy orderId = false ->
    status_check_run (status_missing_input, [])
| st_sign_throws e :
    truthy orderId = true ->
    generateSignature w (JSON_stringify status_query) (key cfg) = Thrown e ->
    status_check_run
      (status_failed e,
       [GenerateSignature (JSON_stringify status_query) (key cfg) (Thrown e);
        status_failure_logged e])
| st_posted sig out res rest :
    truthy orderId = true ->
    generateSignature w (JSON_stringify status_query) (key cfg) = Ok sig ->
    axios_post w status_url (envelope status_query sig) Server1.json_headers
    = out ->
    status_answered out (res, rest) ->
    status_check_run
      (res,
       GenerateSignature (JSON_stringify status_query) (key cfg) (Ok sig)
       :: AxiosPost status_url (envelope status_query sig)
            Server1.json_headers out
       :: rest).

End status_check_runs.

(** Amount and customer identifier are both present and truthy. *)
Definition order_inputs_present (req : Request) : bool :=
  truthy (field (body req) "amount") && truthy (field (body req) "customerId").

(** The three outcomes claimed for a request that reaches the gateway, as a
    statement about one run.  [surfaced] says which rejected responses the
    400 clause speaks of. *)
Definition create_order_outcomes
    (surfaced : JsVal -> Prop) (env : Env) (w : World) (req : Request) : Prop :=
  let res := (Server1.create_order env w req).1 in
  let trace := (Server1.create_order env w req).2 in
  (status res = 200 <->
   exists url p c r,
     AxiosPost url p c (Ok r) ∈ trace /\ gateway_accepts (data r) = true) /\
  (forall url p c r,
     AxiosPost url p c (Ok r) ∈ trace ->
     gateway_accepts (data r) = true ->
     res = order_created env w req (gateway_token (data r))) /\
  (forall url p c r,
     AxiosPost url p c (Ok r) ∈ trace ->
     gateway_accepts (data r) = false ->
     surfaced (data r) ->
     res = order_rejected (data r)) /\
  (forall url p c e,
     AxiosPost url p c (Thrown e) ∈ trace -> res = order_failed e).

(** A string that is not empty. *)
Definition nonempty_string (v : JsVal) : bool :=
  match v with
  | VStr s => negb (String.eqb s EmptyString)
  | _ => false
  end.

(** The response carries a transaction token. *)
Definition token_bearing (res : Response) : bool :=
  nonempty_string (sent_field res "txnToken").

(** Every success payload of a run bears a token. *)
Definition success_bears_token (env : Env) (w : World) (req : Request) : Prop :=
  status (Server1.create_order env w req).1 = 200 ->
  token_bearing (Server1.create_order env w req).1 = true.

(** In a trace, every request sent to the gateway carries a body and, in its
    head, the signature the checksum library returned just before for the
    JSON serialization of that body; and every signature obtained is followed
    by the request that carries the body it was computed from. *)
Definition signs_what_it_sends (trace : list Event) : Prop :=
  (forall url p c out,
     AxiosPost url p c out ∈ trace ->
     exists b k sig rest,
       p = envelope b sig /\
       trace = GenerateSignature (JSON_stringify b) k (Ok sig)
               :: AxiosPost url p c out :: rest) /\
  (forall params k sig,
     GenerateSignature params k (Ok sig) ∈ trace ->
     exists b url c out rest,
       params = JSON_stringify b /\
       trace = GenerateSignature params k (Ok sig)
               :: AxiosPost url (envelope b sig) c out :: rest).

Section callbacks.

Variable env : Env.
Variable w : World.
Variable req : Request.

(** The signature value of the payload and the fields that remain once it is
    detached. *)
Definition received_checksum : JsVal := field (body req) "CHECKSUMHASH".

Definition remaining_fields : Obj := delete_prop (body req) "CHECKSUMHASH".

(** What the checksum library says of the payload. *)
Definition verdict : Result bool :=
  verifySignature w remaining_fields (key (paytmConfig env)) received_checksum.

Definition verification : Event :=
  VerifySignature remaining_fields (key (paytmConfig env)) received_checksum
    verdict.

End callbacks.

(** The variants answer with different status codes only when the payload
    has no [CHECKSUMHASH] field. *)
Definition variants_differ_only_without_field
    (env : Env) (w : World) (req : Request) : Prop :=
  status (Server1.callback env w req).1 <> status (Server2.callback env w req).1
  <-> own (body req) "CHECKSUMHASH" = None.

(** The local status enumeration of the specification. *)
Inductive OrderStatus := PENDING | SUCCESS | FAILED | UNKNOWN.

Definition status_label (s : OrderStatus) : string :=
  match s with
  | PENDING => "PENDING"
  | SUCCESS => "SUCCESS"
  | FAILED => "FAILED"
  | UNKNOWN => "UNKNOWN"
  end.

(** The mapping the specification asks for, in its words: ["TXN_SUCCESS"]
    is SUCCESS, ["TXN_FAILURE"] is FAILED, ["PENDING"] is PENDING, anything
    else is UNKNOWN.  The program has no such function. *)
Definition normalized_status (code : JsVal) : OrderStatus :=
  if strict_eq_string code "TXN_SUCCESS" then SUCCESS
  else if strict_eq_string code "TXN_FAILURE" then FAILED
  else if strict_eq_string code "PENDING" then PENDING
  else UNKNOWN.

(** The status field of every answer of a run is the normalized status. *)
Definition status_is_normalized (env : Env) (w : World) (req : Request) : Prop :=
  forall url p c r,
    AxiosPost url p c (Ok r) ∈ (Server1.status_check env w req).2 ->
    sent_field (Server1.status_check env w req).1 "status"
    = VStr (status_label (normalized_status (raw_status (data r)))).

Definition status_reports (code : string) : Result AxiosResponse :=
  Ok {| data :=
          VObj [("body",
                 VObj [("resultInfo",
                        VObj [("resultStatus", VStr code)])])] |}.

Definition status_request : Request :=
  {| body := [("orderId", VStr "ORDER_1700000000000_123")] |}.

(** Two environments that differ at most in the merchant key. *)
Definition same_but_key (env1 env2 : Env) : Prop :=
  forall v : string, v <> "PAYTM_MERCHANT_KEY" -> env1 !! v = env2 !! v.

(** The response of each route as a function of the gateway's answer. *)
Definition order_response_after
    (env : Env) (w : World) (req : Request) (out : Result AxiosResponse)
  : Response :=
  match out with
  | Thrown e => order_failed e
  | Ok r =>
      match get (data r) "body" with
      | Thrown e => order_failed e
      | Ok _ =>
          if gateway_accepts (data r)
          then order_created env w req (gateway_token (data r))
          else order_rejected (data r)
      end
  end.

Definition status_response_after
    (req : Request) (out : Result AxiosResponse) : Response :=
  match out with
  | Thrown e => status_failed e
  | Ok r =>
      match get (data r) "body" with
      | Thrown e => status_failed e
      | Ok _ => status_found req (data r)
      end
  end.

(** The sample environment under another merchant key. *)
Definition rekeyed_env : Env :=
  <["PAYTM_MERCHANT_KEY" := "fedcba9876543210"]> Sample.env.

(** ** Kinds of interaction *)

Definition is_post (ev : Event) : bool :=
  match ev with AxiosPost _ _ _ _ => true | _ => false end.

Definition is_sign (ev : Event) : bool :=
  match ev with GenerateSignature _ _ _ => true | _ => false end.

Definition is_verify (ev : Event) : bool :=
  match ev with VerifySignature _ _ _ _ => true | _ => false end.

(** How often a kind of interaction occurs in a trace. *)
Definition occurrences (kind : Event -> bool) (trace : list Event) : nat :=
  length (List.filter kind trace).

(** The second [server.js] logs a rejected initiation under another label. *)
Definition relabel (ev : Event) : Event :=
  match ev with
  | Console error [VStr "Initiate Transaction Failed:"; d] =>
      Console error [VStr "Paytm initiate txn failed:"; d]
  | _ => ev
  end.

(** The variables of the environment the routes read. *)
Definition route_variables : list string :=
  ["PAYTM_MID"; "PAYTM_MERCHANT_KEY"; "PAYTM_WEBSITE"; "PAYTM_CALLBACK_URL";
   "PAYTM_ENVIRONMENT"].

(** Numbers, strings and booleans. *)
Definition is_primitive (v : JsVal) : bool :=
  match v with
  | VBool _ | VNum _ | VStr _ => true
  | _ => false
  end.

(** The three answers of a callback route with acknowledgment [ack]. *)
Definition callback_answers (ack : string) : list Response :=
  [res_send 200 ack;
   res_send 400 "Checksum mismatched";
   res_send 500 "Internal Server Error"].

(** A checksum library that rejects every key. *)
Definition broken_signer : World :=
  {| Date_now := 1700000000000;
     Math_random := 1234 # 10000;
     generateSignature := fun _ _ => Thrown (TypeError "Invalid key length");
     verifySignature := Sample.verify;
     axios_post := fun _ _ _ => Sample.accepted (VStr "TOK123") |}.

(** A gateway that answers 401 with a body: axios throws an error that
    carries it. *)
Definition unauthorized : JsError :=
  {| message := "Request failed with status code 401";
     response_data := VObj [("reason", VStr "bad signature")] |}.

(** * Properties *)

(** ** The model on small inputs *)

Example Number_toString_negative : Number_toString (-5) = "-5".
Proof. reflexivity. Qed.

Example ToString_array :
  ToString (VArr [VNum 1; VNull; VStr "a"; VArr [VBool true; VUndef]])
  = Ok "1,,a,true,".
Proof. reflexivity. Qed.

Example toString_shadowed :
  call_toString "amount" (VObj [("toString", VNum 1)])
  = Thrown (TypeError "amount.toString is not a function").
Proof. reflexivity. Qed.

Example JSON_stringify_skips_undefined :
  JSON_stringify (VObj [("a", VNum 1); ("u", VUndef); ("l", VArr [VUndef])])
  = "{" +:+ JSON_quote "a" +:+ ":1," +:+ JSON_quote "l" +:+ ":[null]}".
Proof. reflexivity. Qed.

Example paytmConfig_staging :
  host (paytmConfig Sample.env) = "https://securegw-stage.paytm.in"
  /\ channelId (paytmConfig Sample.env) = "WEB".
Proof. split; reflexivity. Qed.

Example create_order_bad_amount :
  (Server1.create_order Sample.env
     (Sample.world (Sample.accepted (VStr "TOK123")))
     {| body := [("amount", VObj [("toString", VNum 1)]);
                 ("customerId", VStr "cust1")] |}).1
  = res_json 500
      (VObj [("error", VStr "Something went wrong while creating order");
             ("details", VStr "amount.toString is not a function")]).
Proof. reflexivity. Qed.

(** ** Order identifiers *)

Section order_ids.

Lemma digits_string_of_uint (d : Decimal.uint) :
  digits (NilEmpty.string_of_uint d) = true.
Proof. induction d; simpl; auto. Qed.

Lemma string_of_uint_nonempty (d : Decimal.uint) :
  d <> Decimal.Nil -> NilEmpty.string_of_uint d <> EmptyString.
Proof. destruct d; simpl; congruence. Qed.

Lemma is_number_toString (n : Z) : 0 <= n -> is_number (Number_toString n) = true.
Proof.
  intros Hn. unfold Number_toString, is_number.
  destruct n as [|p|p]; [reflexivity| |lia].
  simpl. unfold NilZero.string_of_uint.
  pose proof (DecimalPos.Unsigned.to_uint_nonnil p) as Hnil.
  pose proof (digits_string_of_uint (Pos.to_uint p)) as Hd.
  pose proof (string_of_uint_nonempty _ Hnil) as Hne.
  destruct (Pos.to_uint p); try congruence;
    simpl in *; rewrite Hd; reflexivity.
Qed.

Lemma random_below_1000_range (w : World) :
  (0 <= Math_random w /\ Math_random w < 1)%Q ->
  0 <= Server1.random_below_1000 w < 1000.
Proof.
  intros [Hlo Hhi]. unfold Server1.random_below_1000. split.
  - change 0 with (Qfloor 0). apply Qfloor_resp_le.
    apply Qmult_le_0_compat; [assumption|discriminate].
  - rewrite Zlt_Qlt.
    eapply Qle_lt_trans; [apply Qfloor_le|].
    change (inject_Z 1000) with (1 * 1000)%Q.
    apply Qmult_lt_compat_r; [reflexivity|assumption].
Qed.

End order_ids.



(** ** The runs of create-order and status-check *)

#[local] Arguments JSON_stringify : simpl never.
#[local] Arguments Number_toString : simpl never.
#[local] Arguments Server1.generateOrderId : simpl never.
#[local] Arguments String.append : simpl never.
#[local] Arguments paytmConfig : simpl never.

Ltac run_monad := unfold try_catch, bind, lift, emit, ret, console; simpl.

(** Case analysis on the shape of a gateway response, as deep as the routes
    look into it. *)
Ltac open_response :=
  repeat match goal with
    | |- context [field ?o ?k] =>
        let v := fresh "v" in
        let Hv := fresh "Hv" in
        destruct (field o k) as [| |[]|?|?|?|?] eqn:Hv; simpl
    | |- context [String.eqb ?s "S"] =>
        let Hs := fresh "Hs" in destruct (String.eqb s "S") eqn:Hs; simpl
    | |- context [Z.eqb ?s 0] =>
        let Hs := fresh "Hs" in destruct (Z.eqb s 0) eqn:Hs; simpl
    | |- context [String.eqb ?s EmptyString] =>
        let Hs := fresh "Hs" in destruct (String.eqb s EmptyString) eqn:Hs; simpl
    end.

Lemma create_order_answers env w req (r : AxiosResponse) :
  create_order_answered env w req (Ok r)
    (let d := data r in
     match get d "body" with
     | Thrown e => (order_failed e, [order_failure_logged e])
     | Ok _ =>
         if gateway_accepts d
         then (order_created env w req (gateway_token d), [])
         else (order_rejected d,
               [Console error [VStr "Initiate Transaction Failed:"; d]])
     end).
Proof.
  cbv zeta. destruct (get (data r) "body") as [b|e] eqn:Hb.
  2: { apply co_no_response; assumption. }
  destruct (gateway_accepts (data r)) eqn:Hacc.
  - apply co_accepted; assumption.
  - apply co_rejected; [|assumption]. destruct (data r); simpl in *; congruence.
Qed.

Lemma create_order_runs env w req :
  create_order_run env w req (Server1.create_order env w req).
Proof.
  unfold Server1.create_order.
  destruct (truthy (field (body req) "amount")) eqn:Ha;
    [destruct (truthy (field (body req) "customerId")) eqn:Hc|];
    simpl negb; simpl orb; cbv iota.
  2,3: apply co_missing_input; rewrite ?Ha, ?Hc; reflexivity.
  assert (Hv : truthy (field (body req) "amount")
               && truthy (field (body req) "customerId") = true)
    by (rewrite Ha, Hc; reflexivity).
  destruct (call_toString "amount" (field (body req) "amount"))
    as [value|e] eqn:Hvalue.
  2: { apply co_amount_throws; assumption. }
  destruct (call_toString "customerId" (field (body req) "customerId"))
    as [custId|e] eqn:Hcust.
  2: { eapply co_customer_throws; eassumption. }
  eapply co_signed; [eassumption..|reflexivity|].
  cbv zeta. unfold initiate_params. run_monad.
  destruct (generateSignature w _ _) as [sig|e].
  2: { apply co_sign_throws. }
  destruct (axios_post w _ _ _) as [r|e] eqn:Hpost.
  2: { eapply co_posted; [exact Hpost|apply co_post_throws]. }
  pose proof (create_order_answers env w req r) as Hans. cbv zeta in Hans.
  set (amount := field (body req) "amount") in *.
  destruct r as [d]; simpl in *.
  destruct d; simpl in *; try (eapply co_posted; [exact Hpost|exact Hans]).
  revert Hans. unfold gateway_accepts, gateway_token. simpl. open_response.
  all: intros Hans; eapply co_posted; [exact Hpost|exact Hans].
Qed.

Lemma status_answers req (r : AxiosResponse) :
  status_answered req (Ok r)
    (match get (data r) "body" with
     | Thrown e => (status_failed e, [status_failure_logged e])
     | Ok _ => (status_found req (data r), [])
     end).
Proof.
  destruct (get (data r) "body") as [b|e] eqn:Hb.
  - apply st_found. destruct (data r); simpl in *; congruence.
  - apply st_no_response; assumption.
Qed.

Lemma status_check_runs env w req :
  status_check_run env w req (Server1.status_check env w req).
Proof.
  unfold Server1.status_check.
  destruct (truthy (field (body req) "orderId")) eqn:Ho; simpl negb; cbv iota.
  2: { apply st_missing_input; assumption. }
  cbv zeta. run_monad.
  destruct (generateSignature w _ _) as [sig|e] eqn:Hsig.
  2: { apply st_sign_throws; assumption. }
  destruct (axios_post w _ _ _) as [r|e] eqn:Hpost.
  2: { eapply st_posted;
         [assumption|exact Hsig|exact Hpost|apply st_post_throws]. }
  set (orderId := field (body req) "orderId") in *.
  pose proof (status_answers req r) as Hans.
  destruct r as [d].
  destruct d; simpl in *;
    (eapply st_posted; [assumption|exact Hsig|exact Hpost|exact Hans]).
Qed.

(** ** create-order *)

(** Membership of an event in a concrete trace. *)
Ltac trace_mem :=
  repeat match goal with
    | H : _ ∈ [] |- _ => apply elem_of_nil in H; destruct H
    | H : _ ∈ _ :: _ |- _ =>
        apply elem_of_cons in H; destruct H as [H|H]; [simplify_eq|]
    end.

(** Two names for the one answer of the gateway. *)
Ltac same_answer :=
  repeat match goal with
    | H1 : Ok ?a = ?x, H2 : Ok ?b = ?x |- _ =>
        assert (a = b) by congruence; subst a; clear H1
    end.

Ltac posted_second :=
  do 4 eexists; split;
  [apply list_elem_of_further, list_elem_of_here|assumption].

Ltac invert_run :=
  repeat match goal with
    | H : create_order_run _ _ _ (_, _) |- _ => inversion H; clear H; subst
    | H : create_order_signed _ _ _ _ _ (_, _) |- _ => inversion H; clear H; subst
    | H : create_order_answered _ _ _ _ (_, _) |- _ => inversion H; clear H; subst
    | H : status_check_run _ _ _ (_, _) |- _ => inversion H; clear H; subst
    | H : status_answered _ _ (_, _) |- _ => inversion H; clear H; subst
    end.

Lemma get_throws_nullish d k e : get d k = Thrown e -> nullish d = true.
Proof. destruct d; simpl; congruence. Qed.

Lemma nullish_not_accepted d : nullish d = true -> gateway_accepts d = false.
Proof. destruct d; simpl; intros H; try discriminate H; reflexivity. Qed.

Ltac no_response :=
  repeat match goal with
    | H : get ?d _ = Thrown _ |- _ =>
        lazymatch goal with
        | _ : nullish d = true |- _ => fail
        | _ =>
            pose proof (get_throws_nullish _ _ _ H);
            pose proof (nullish_not_accepted _ (get_throws_nullish _ _ _ H))
        end
    end.

Lemma create_order_outcomes_hold env w req :
  order_inputs_present req = true ->
  create_order_outcomes (fun d => nullish d = false) env w req.
Proof.
  intros Hvalid. unfold create_order_outcomes.
  pose proof (create_order_runs env w req) as Hrun.
  destruct (Server1.create_order env w req) as [res trace]. simpl.
  unfold order_inputs_present in Hvalid.
  invert_run; try congruence; no_response.
  all: repeat split; try (intros; trace_mem; simpl in *; congruence).
  all: try (intros (? & ? & ? & ? & Hin & ?); trace_mem; simpl in *; congruence).
  all: try (simpl; intros; discriminate).
  intros _. posted_second.
Qed.

(** C1, amended.  For a create-order request with amount and customer
    identifier present, the response is the 200 payload (mid, orderId,
    amount, txnToken, callbackUrl, env) exactly when the gateway answered
    with a body whose result-info has [resultStatus] ["S"]; when the gateway
    answered with a value other than [null] or [undefined] that is not such a
    body, the response is 400 and carries the gateway's answer; when the
    gateway call threw, the response is 500 and carries the error's
    message. *)
Theorem create_order_outcome_by_gateway (env : Env) (w : World) (req : Request) :
  order_inputs_present req = true ->
  let res := (Server1.create_order env w req).1 in
  let trace := (Server1.create_order env w req).2 in
  (status res = 200 <->
   exists url p c r,
     AxiosPost url p c (Ok r) ∈ trace /\ gateway_accepts (data r) = true) /\
  (forall url p c r,
     AxiosPost url p c (Ok r) ∈ trace ->
     gateway_accepts (data r) = true ->
     res = res_json 200
             (VObj [("mid", js_of_env (mid (paytmConfig env)));
                    ("orderId", VStr (Server1.generateOrderId w));
                    ("amount", field (body req) "amount");
                    ("txnToken", gateway_token (data r));
                    ("callbackUrl", js_of_env (callbackUrl (paytmConfig env)));
                    ("env", js_of_env (env !! "PAYTM_ENVIRONMENT"))])) /\
  (forall url p c r,
     AxiosPost url p c (Ok r) ∈ trace ->
     gateway_accepts (data r) = false ->
     nullish (data r) = false ->
     res = res_json 400
             (VObj [("error", VStr "Failed to initiate transaction");
                    ("paytmResponse", data r)])) /\
  (forall url p c e,
     AxiosPost url p c (Thrown e) ∈ trace ->
     res = res_json 500
             (VObj [("error", VStr "Something went wrong while creating order");
                    ("details", VStr (message e))])).
Proof.
  intros Hvalid. exact (create_order_outcomes_hold env w req Hvalid).
Qed.

(** A gateway that answers the literal [null]: the response is the 500 of
    the catch block, not the 400 that surfaces the gateway's answer. *)
Lemma create_order_null_response_not_400 :
  order_inputs_present Sample.order = true /\
  ~ create_order_outcomes (fun _ => True)
      Sample.env (Sample.world (Ok {| data := VNull |})) Sample.order.
Proof.
  split; [reflexivity|].
  intros (_ & _ & H400 & _).
  specialize (H400 _ _ _ {| data := VNull |}
                (list_elem_of_further _ _ _ (list_elem_of_here _ _)) eq_refl I).
  vm_compute in H400. discriminate H400.
Qed.

Lemma create_order_outcome_by_gateway_witness :
  (Server1.create_order Sample.env
     (Sample.world (Sample.accepted (VStr "TOK123"))) Sample.order).1
  = res_json 200
      (VObj [("mid", VStr "MID123");
             ("orderId", VStr "ORDER_1700000000000_123");
             ("amount", VNum 100);
             ("txnToken", VStr "TOK123");
             ("callbackUrl", VStr "https://shop.example/api/paytm/callback");
             ("env", VStr "STAGE")]).
Proof.
  pose proof (create_order_outcome_by_gateway Sample.env
                (Sample.world (Sample.accepted (VStr "TOK123"))) Sample.order
                eq_refl) as (_ & Hok & _).
  refine (Hok _ _ _ {| data := _ |}
            (list_elem_of_further _ _ _ (list_elem_of_here _ _)) eq_refl).
Defined.

(** C2, amended.  For a create-order request with amount and customer
    identifier present, the response is an error (400 or 500) or a 200
    payload whose [txnToken] is the [txnToken] of the gateway's body, as it
    came; so the payload bears a token exactly when the gateway's body
    does. *)
Theorem create_order_token_from_gateway (env : Env) (w : World) (req : Request) :
  order_inputs_present req = true ->
  let res := (Server1.create_order env w req).1 in
  let trace := (Server1.create_order env w req).2 in
  (status res = 400 \/ status res = 500) \/
  (status res = 200 /\
   exists url p c r,
     AxiosPost url p c (Ok r) ∈ trace /\
     sent_field res "txnToken" = gateway_token (data r) /\
     token_bearing res = nonempty_string (gateway_token (data r))).
Proof.
  intros Hvalid.
  pose proof (create_order_runs env w req) as Hrun.
  destruct (Server1.create_order env w req) as [res trace]. simpl.
  unfold order_inputs_present in Hvalid.
  invert_run; try congruence; try (left; simpl; auto; fail).
  right. split; [reflexivity|].
  do 4 eexists. split; [apply list_elem_of_further, list_elem_of_here|].
  split; reflexivity.
Qed.

(** The gateway reports ["S"] and sends no token: the caller gets a 200
    payload without one. *)
Lemma create_order_success_without_token :
  order_inputs_present Sample.order = true /\
  ~ success_bears_token
      Sample.env (Sample.world (Sample.accepted VUndef)) Sample.order.
Proof.
  split; [reflexivity|].
  intros H. specialize (H eq_refl). vm_compute in H. discriminate H.
Qed.

Lemma create_order_token_from_gateway_witness :
  token_bearing
    (Server1.create_order Sample.env
       (Sample.world (Sample.accepted (VStr "TOK123"))) Sample.order).1
  = true.
Proof.
  pose proof (create_order_token_from_gateway Sample.env
                (Sample.world (Sample.accepted (VStr "TOK123"))) Sample.order
                eq_refl) as [[H|H]|(_ & _)].
  - vm_compute in H. discriminate H.
  - vm_compute in H. discriminate H.
  - reflexivity.
Defined.

(** ** Missing input *)



(** ** Signing what is sent *)

Ltac signed_then_sent :=
  split; intros; trace_mem;
  try (unfold order_failure_logged, status_failure_logged in *; simplify_eq);
  repeat eexists.



(** ** The callback *)

Section callback_runs.

Variable env : Env.
Variable w : World.
Variable req : Request.

Lemma callback1_run :
  Server1.callback env w req
  = let logged := Console log [VStr "Paytm callback data:"; VObj (body req)] in
    if truthy (received_checksum req) then
      match verdict env w req with
      | Ok true =>
          (res_send 200
             "Paytm callback received. You can close this window and return to the app.",
           [logged; verification env w req])
      | Ok false =>
          (res_send 400 "Checksum mismatched",
           [logged; verification env w req;
            Console warn [VStr "❌ Invalid checksum in callback"]])
      | Thrown e =>
          (res_send 500 "Internal Server Error",
           [logged; verification env w req;
            Console error [VStr "callback error:"; VStr (message e)]])
      end
    else
      (res_send 200
         "Paytm callback received. You can close this window and return to the app.",
       [logged]).
Proof.
  unfold Server1.callback, verification, verdict, received_checksum,
    remaining_fields.
  destruct (truthy _); run_monad; [|reflexivity].
  destruct (verifySignature w _ _ _) as [[]|]; reflexivity.
Qed.

Lemma callback2_run :
  Server2.callback env w req
  = let logged :=
      Console log [VStr "Paytm callback received:"; VObj (body req)] in
    if truthy (received_checksum req) then
      match verdict env w req with
      | Ok true =>
          (res_send 200
             "Callback received. Please wait while we verify payment.",
           [logged; verification env w req])
      | Ok false =>
          (res_send 400 "Checksum mismatched",
           [logged; verification env w req;
            Console warn [VStr "Invalid checksum in callback"]])
      | Thrown e =>
          (res_send 500 "Internal Server Error",
           [logged; verification env w req;
            Console error [VStr "callback error:"; VStr (message e)]])
      end
    else
      (res_send 400 "Checksum mismatched",
       [logged; Console warn [VStr "Invalid checksum in callback"]]).
Proof.
  unfold Server2.callback, verification, verdict, received_checksum,
    remaining_fields.
  destruct (truthy _); run_monad; [|reflexivity].
  destruct (verifySignature w _ _ _) as [[]|]; reflexivity.
Qed.

End callback_runs.




(** C7.  In both callback variants the first interaction of every run is
    the log entry of the payload as received, signature field included; the
    checksum library, when it is asked, is asked afterwards and about the
    payload without that field.  The entry is there whatever the library
    answers. *)
Theorem callback_logs_raw_payload_first (env : Env) (w : World) (req : Request) :
  (exists rest,
     (Server1.callback env w req).2
     = Console log [VStr "Paytm callback data:"; VObj (body req)] :: rest /\
     forall p k c out,
       VerifySignature p k c out ∈ (Server1.callback env w req).2 ->
       VerifySignature p k c out ∈ rest /\
       p = delete_prop (body req) "CHECKSUMHASH") /\
  (exists rest,
     (Server2.callback env w req).2
     = Console log [VStr "Paytm callback received:"; VObj (body req)] :: rest /\
     forall p k c out,
       VerifySignature p k c out ∈ (Server2.callback env w req).2 ->
       VerifySignature p k c out ∈ rest /\
       p = delete_prop (body req) "CHECKSUMHASH").
Proof.
  rewrite callback1_run, callback2_run. cbv zeta.
  destruct (truthy (received_checksum req));
    [destruct (verdict env w req) as [[]|]|]; simpl.
  all: split; eexists; (split; [reflexivity|]).
  all: unfold verification, remaining_fields; intros p k c out Hin; trace_mem.
  all: split; [auto using list_elem_of_here, list_elem_of_further|reflexivity].
Qed.

Lemma callback_logs_raw_payload_first_witness :
  exists rest,
    (Server1.callback Sample.env
       (Sample.world (Sample.accepted (VStr "TOK123")))
       {| body := [("ORDERID", VStr "ORDER_1");
                   ("CHECKSUMHASH", VStr "bad")] |}).2
    = Console log [VStr "Paytm callback data:";
                   VObj [("ORDERID", VStr "ORDER_1");
                         ("CHECKSUMHASH", VStr "bad")]] :: rest.
Proof.
  destruct (callback_logs_raw_payload_first Sample.env
              (Sample.world (Sample.accepted (VStr "TOK123")))
              {| body := [("ORDERID", VStr "ORDER_1");
                          ("CHECKSUMHASH", VStr "bad")] |})
    as [(rest & Hlog & _) _].
  exists rest. exact Hlog.
Defined.

(** ** status-check *)

(** C4, amended.  For a status-check request with the order identifier
    present, when the gateway answers with a value other than [null] or
    [undefined] the response is 200 and its [status] field is the gateway's
    result status as it came, not mapped: ["TXN_SUCCESS"] stays
    ["TXN_SUCCESS"], ["TXN_FAILURE"] stays ["TXN_FAILURE"], a code the
    program has never heard of stays what it is, and none of them makes the
    route fail. *)
Theorem status_is_passed_through (env : Env) (w : World) (req : Request) :
  truthy (field (body req) "orderId") = true ->
  forall url p c r,
    AxiosPost url p c (Ok r) ∈ (Server1.status_check env w req).2 ->
    nullish (data r) = false ->
    status (Server1.status_check env w req).1 = 200 /\
    sent_field (Server1.status_check env w req).1 "status" = raw_status (data r).
Proof.
  intros _ url p c r.
  pose proof (status_check_runs env w req) as Hrun.
  destruct (Server1.status_check env w req) as [res trace]. simpl.
  intros Hin Hnn.
  invert_run; trace_mem; no_response; try congruence.
  same_answer. split; reflexivity.
Qed.

(** The gateway reports ["TXN_SUCCESS"] and the caller reads
    ["TXN_SUCCESS"], which is not the label of SUCCESS, nor of any other
    local status. *)
Lemma status_not_normalized :
  ~ status_is_normalized Sample.env
      (Sample.world (status_reports "TXN_SUCCESS")) status_request.
Proof.
  intros H.
  specialize (H _ _ _ _ (list_elem_of_further _ _ _ (list_elem_of_here _ _))).
  vm_compute in H. discriminate H.
Qed.

Lemma status_is_passed_through_witness :
  sent_field
    (Server1.status_check Sample.env
       (Sample.world (status_reports "TXN_SUCCESS")) status_request).1 "status"
  = VStr "TXN_SUCCESS".
Proof.
  apply (status_is_passed_through Sample.env
           (Sample.world (status_reports "TXN_SUCCESS")) status_request
           eq_refl _ _ _ _
           (list_elem_of_further _ _ _ (list_elem_of_here _ _)) eq_refl).
Defined.

(** C9.  For a status-check request with the order identifier present, when
    the gateway call returns an object the response is 200 and nothing is
    logged as an error; if the object has no [body], or its body no
    [resultInfo], the [status] and [resultInfo] fields of the response are
    [undefined]. *)
Theorem status_check_tolerates_missing_fields
    (env : Env) (w : World) (req : Request) :
  truthy (field (body req) "orderId") = true ->
  forall url p c o,
    AxiosPost url p c (Ok {| data := VObj o |})
    ∈ (Server1.status_check env w req).2 ->
    status (Server1.status_check env w req).1 = 200 /\
    (forall args, Console error args ∉ (Server1.status_check env w req).2) /\
    (own o "body" = None \/ get_opt (field o "body") "resultInfo" = VUndef ->
     sent_field (Server1.status_check env w req).1 "status" = VUndef /\
     sent_field (Server1.status_check env w req).1 "resultInfo" = VUndef).
Proof.
  intros _ url p c o.
  pose proof (status_check_runs env w req) as Hrun.
  destruct (Server1.status_check env w req) as [res trace]. simpl.
  intros Hin.
  invert_run; trace_mem; same_answer; no_response;
    try (simpl in *; congruence).
  split; [reflexivity|]. split.
  - intros args Hargs. trace_mem.
  - intros Hmissing.
    assert (Hri : get_opt (field o "body") "resultInfo" = VUndef).
    { destruct Hmissing as [Hnone|Hri]; [|exact Hri].
      unfold field. rewrite Hnone. reflexivity. }
    unfold sent_field, status_found, raw_status, result_info. simpl.
    rewrite Hri. split; reflexivity.
Qed.

Lemma status_check_tolerates_missing_fields_witness :
  (Server1.status_check Sample.env
     (Sample.world (Ok {| data := VObj [("head", VObj [])] |}))
     status_request).1
  = res_json 200
      (VObj [("orderId", VStr "ORDER_1700000000000_123");
             ("status", VUndef);
             ("resultInfo", VUndef);
             ("paytmResponse", VUndef)]).
Proof.
  destruct (status_check_tolerates_missing_fields Sample.env
              (Sample.world (Ok {| data := VObj [("head", VObj [])] |}))
              status_request eq_refl _ _ _ _
              (list_elem_of_further _ _ _ (list_elem_of_here _ _)))
    as (_ & _ & _).
  reflexivity.
Defined.

(** ** The secret key *)

Section two_keys.

Variables env1 env2 : Env.
Variables w1 w2 : World.
Variable req : Request.

Hypothesis Henv : same_but_key env1 env2.
Hypothesis Hclock : Date_now w1 = Date_now w2.
Hypothesis Hrandom : Math_random w1 = Math_random w2.

Lemma order_id_agrees : Server1.generateOrderId w1 = Server1.generateOrderId w2.
Proof.
  unfold Server1.generateOrderId, Server1.random_below_1000.
  rewrite Hclock, Hrandom. reflexivity.
Qed.

Lemma order_created_agrees token :
  order_created env1 w1 req token = order_created env2 w2 req token.
Proof.
  unfold order_created. rewrite order_id_agrees. simpl.
  rewrite (Henv "PAYTM_MID"), (Henv "PAYTM_CALLBACK_URL"),
    (Henv "PAYTM_ENVIRONMENT") by discriminate.
  reflexivity.
Qed.

End two_keys.

Lemma get_of_object d k : nullish d = false -> get d k = Ok (get_opt d k).
Proof. destruct d; simpl; intros H; try discriminate H; reflexivity. Qed.

Lemma accepted_not_nullish d : gateway_accepts d = true -> nullish d = false.
Proof. destruct d; simpl; intros H; try discriminate H; reflexivity. Qed.

Lemma create_order_response_after env w req url p c out :
  AxiosPost url p c out ∈ (Server1.create_order env w req).2 ->
  (Server1.create_order env w req).1 = order_response_after env w req out.
Proof.
  pose proof (create_order_runs env w req) as Hrun.
  destruct (Server1.create_order env w req) as [res trace]. simpl.
  intros Hin. invert_run; trace_mem; unfold order_response_after;
    repeat match goal with H : _ = axios_post _ _ _ _ |- _ => rewrite <- H end.
  - reflexivity.
  - match goal with H : get _ _ = Thrown _ |- _ => rewrite H end. reflexivity.
  - match goal with H : nullish _ = false |- _ =>
      rewrite (get_of_object _ "body" H) end.
    match goal with H : gateway_accepts _ = _ |- _ => rewrite H end.
    reflexivity.
  - match goal with H : gateway_accepts _ = true |- _ =>
      rewrite (get_of_object _ "body" (accepted_not_nullish _ H)), H end.
    reflexivity.
Qed.

Lemma status_check_response_after env w req url p c out :
  AxiosPost url p c out ∈ (Server1.status_check env w req).2 ->
  (Server1.status_check env w req).1 = status_response_after req out.
Proof.
  pose proof (status_check_runs env w req) as Hrun.
  destruct (Server1.status_check env w req) as [res trace]. simpl.
  intros Hin. invert_run; trace_mem; unfold status_response_after;
    repeat match goal with H : _ = axios_post _ _ _ _ |- _ => rewrite <- H end.
  - reflexivity.
  - match goal with H : get _ _ = Thrown _ |- _ => rewrite H end. reflexivity.
  - match goal with H : nullish _ = false |- _ =>
      rewrite (get_of_object _ "body" H) end.
    reflexivity.
Qed.




(** * Further properties of the routes *)

(** ** Order identifiers collide only on the same millisecond and number *)

Lemma Number_toString_inj (a b : Z) :
  Number_toString a = Number_toString b -> a = b.
Proof.
  unfold Number_toString. intros H.
  apply DecimalZ.to_int_inj.
  assert (Hok : forall z, NilZero.int_of_string (NilZero.string_of_int (Z.to_int z))
                          = Some (Z.to_int z)).
  { intros z. apply NilZero.isi.
    - destruct z as [|p|p]; simpl; try discriminate.
      pose proof (DecimalPos.Unsigned.to_uint_nonnil p). congruence.
    - destruct z as [|p|p]; simpl; try discriminate.
      pose proof (DecimalPos.Unsigned.to_uint_nonnil p). congruence. }
  pose proof (Hok a) as Ha. rewrite H, Hok in Ha. congruence.
Qed.

Lemma digits_then_underscore (a a' b b' : string) :
  digits a = true -> digits a' = true ->
  a +:+ String "_" b = a' +:+ String "_" b' -> a = a' /\ b = b'.
Proof.
  revert a'. induction a as [|x a IH]; intros [|x' a'] Ha Ha' H; simpl in *.
  - injection H as ->. split; reflexivity.
  - injection H as <- _. apply andb_true_iff in Ha' as [Hx _]. discriminate Hx.
  - injection H as -> _. apply andb_true_iff in Ha as [Hx _]. discriminate Hx.
  - injection H as -> H.
    apply andb_true_iff in Ha as [_ Ha]. apply andb_true_iff in Ha' as [_ Ha'].
    destruct (IH a' Ha Ha' H) as [-> ->]. split; reflexivity.
Qed.

Lemma digits_of_number (s : string) : is_number s = true -> digits s = true.
Proof. unfold is_number. intros H. apply andb_true_iff in H as [_ H]. exact H. Qed.

Lemma append_cancel_l (p a b : string) : p +:+ a = p +:+ b -> a = b.
Proof.
  induction p as [|c p IH]; cbn [String.append]; intros H;
    [exact H|injection H as H; exact (IH H)].
Qed.



(** ** What create-order sends *)

(** X2.  In every run of create-order, the order identifier in the URL of
    the gateway request, the one in the signed body and, on success, the one
    returned to the caller are the same generated identifier; the merchant
    id in the URL and in the body both come from [PAYTM_MID]. *)
Theorem create_order_threads_order_id (env : Env) (w : World) (req : Request) :
  forall url p c out,
    AxiosPost url p c out ∈ (Server1.create_order env w req).2 ->
    url = host (paytmConfig env)
          +:+ "/theia/api/v1/initiateTransaction?mid="
          +:+ template_of_env (env !! "PAYTM_MID")
          +:+ "&orderId=" +:+ Server1.generateOrderId w /\
    get_opt (get_opt p "body") "orderId" = VStr (Server1.generateOrderId w) /\
    get_opt (get_opt p "body") "mid" = js_of_env (env !! "PAYTM_MID") /\
    (status (Server1.create_order env w req).1 = 200 ->
     sent_field (Server1.create_order env w req).1 "orderId"
     = VStr (Server1.generateOrderId w)).
Proof.
  intros url p c out.
  pose proof (create_order_runs env w req) as Hrun.
  destruct (Server1.create_order env w req) as [res trace]. simpl.
  intros Hin. invert_run; trace_mem.
  all: repeat split; try reflexivity; simpl; intros; discriminate.
Qed.

Lemma create_order_threads_order_id_witness :
  sent_field
    (Server1.create_order Sample.env
       (Sample.world (Sample.accepted (VStr "TOK123"))) Sample.order).1
    "orderId"
  = VStr "ORDER_1700000000000_123".
Proof.
  destruct (create_order_threads_order_id Sample.env
              (Sample.world (Sample.accepted (VStr "TOK123"))) Sample.order
              _ _ _ _ (list_elem_of_further _ _ _ (list_elem_of_here _ _)))
    as (_ & _ & _ & Hid).
  exact (Hid eq_refl).
Defined.



(** ** Failures on the way *)

(** X4.  When the checksum library throws, create-order and status-check
    answer 500 with the library's message and never reach the gateway. *)
Theorem signature_failure_stops_request (env : Env) (w : World) (req : Request) :
  (forall params k e,
     GenerateSignature params k (Thrown e) ∈ (Server1.create_order env w req).2 ->
     (Server1.create_order env w req).1
     = res_json 500
         (VObj [("error", VStr "Something went wrong while creating order");
                ("details", VStr (message e))]) /\
     occurrences is_post (Server1.create_order env w req).2 = 0%nat) /\
  (forall params k e,
     GenerateSignature params k (Thrown e) ∈ (Server1.status_check env w req).2 ->
     (Server1.status_check env w req).1
     = res_json 500
         (VObj [("error", VStr "Something went wrong while checking status");
                ("details", VStr (message e))]) /\
     occurrences is_post (Server1.status_check env w req).2 = 0%nat).
Proof.
  split; intros params k e.
  - pose proof (create_order_runs env w req) as Hrun.
    destruct (Server1.create_order env w req) as [res trace]. simpl.
    intros Hin. invert_run; trace_mem;
      unfold order_failure_logged in *; simplify_eq.
    split; reflexivity.
  - pose proof (status_check_runs env w req) as Hrun.
    destruct (Server1.status_check env w req) as [res trace]. simpl.
    intros Hin. invert_run; trace_mem;
      unfold status_failure_logged in *; simplify_eq.
    split; reflexivity.
Qed.

Lemma signature_failure_stops_request_witness :
  (Server1.create_order Sample.env broken_signer Sample.order).1
  = res_json 500
      (VObj [("error", VStr "Something went wrong while creating order");
             ("details", VStr "Invalid key length")]).
Proof.
  destruct (signature_failure_stops_request Sample.env broken_signer
              Sample.order) as [Hcreate _].
  destruct (Hcreate _ _ (TypeError "Invalid key length")
              (list_elem_of_here _ _)) as [Hres _].
  exact Hres.
Defined.

(** X5.  When the gateway call returns [null] or [undefined], both
    create-order and status-check answer 500 with the message of the
    [TypeError] raised on reading [body]. *)
Theorem null_response_is_server_error (env : Env) (w : World) (req : Request) :
  (forall url p c r,
     AxiosPost url p c (Ok r) ∈ (Server1.create_order env w req).2 ->
     nullish (data r) = true ->
     (Server1.create_order env w req).1
     = res_json 500
         (VObj [("error", VStr "Something went wrong while creating order");
                ("details",
                 VStr ("Cannot read properties of " +:+ typeof_nullish (data r)
                       +:+ " (reading 'body')"))])) /\
  (forall url p c r,
     AxiosPost url p c (Ok r) ∈ (Server1.status_check env w req).2 ->
     nullish (data r) = true ->
     (Server1.status_check env w req).1
     = res_json 500
         (VObj [("error", VStr "Something went wrong while checking status");
                ("details",
                 VStr ("Cannot read properties of " +:+ typeof_nullish (data r)
                       +:+ " (reading 'body')"))])).
Proof.
  split; intros url p c r Hin Hnull.
  - rewrite (create_order_response_after _ _ _ _ _ _ _ Hin).
    unfold order_response_after. destruct (data r); try discriminate Hnull;
      reflexivity.
  - rewrite (status_check_response_after _ _ _ _ _ _ _ Hin).
    unfold status_response_after. destruct (data r); try discriminate Hnull;
      reflexivity.
Qed.

Lemma null_response_is_server_error_witness :
  (Server1.status_check Sample.env
     (Sample.world (Ok {| data := VNull |})) status_request).1
  = res_json 500
      (VObj [("error", VStr "Something went wrong while checking status");
             ("details",
              VStr "Cannot read properties of null (reading 'body')")]).
Proof.
  destruct (null_response_is_server_error Sample.env
              (Sample.world (Ok {| data := VNull |})) status_request)
    as [_ Hstatus].
  exact (Hstatus _ _ _ {| data := VNull |}
           (list_elem_of_further _ _ _ (list_elem_of_here _ _)) eq_refl).
Defined.

(** X6.  When create-order or status-check answers 500, the last thing the
    run did was to log the error under the route's label: the upstream
    response body when the error carries a truthy one, the message
    otherwise.  The caller gets the message only.  A run that answers
    anything else has no such log entry. *)
Theorem server_errors_are_logged (env : Env) (w : World) (req : Request) :
  (let res := (Server1.create_order env w req).1 in
   let trace := (Server1.create_order env w req).2 in
   (status res = 500 ->
    exists e before,
      sent_field res "details" = VStr (message e) /\
      trace = (before ++ [Console error
                           [VStr "create-order error:";
                            js_or (response_data e) (VStr (message e))]])%list) /\
   (status res <> 500 ->
    forall x, Console error [VStr "create-order error:"; x] ∉ trace)) /\
  (let res := (Server1.status_check env w req).1 in
   let trace := (Server1.status_check env w req).2 in
   (status res = 500 ->
    exists e before,
      sent_field res "details" = VStr (message e) /\
      trace = (before ++ [Console error
                           [VStr "status error:";
                            js_or (response_data e) (VStr (message e))]])%list) /\
   (status res <> 500 ->
    forall x, Console error [VStr "status error:"; x] ∉ trace)).
Proof.
  cbv zeta. split.
  - pose proof (create_order_runs env w req) as Hrun.
    destruct (Server1.create_order env w req) as [res trace]. simpl.
    invert_run; (split; [intros Hs|intros Hs x Hin]);
      try (simpl in Hs; congruence); try (trace_mem; fail).
    + exists e, []. split; reflexivity.
    + exists e, []. split; reflexivity.
    + exists e, [GenerateSignature
                   (JSON_stringify (initiate_params env w value custId))
                   (key (paytmConfig env)) (Thrown e)].
      split; reflexivity.
    + eexists e, [_; _]. split; reflexivity.
    + eexists e, [_; _]. split; reflexivity.
  - pose proof (status_check_runs env w req) as Hrun.
    destruct (Server1.status_check env w req) as [res trace]. simpl.
    invert_run; (split; [intros Hs|intros Hs x Hin]);
      try (simpl in Hs; congruence); try (trace_mem; fail).
    + eexists e, [_]. split; reflexivity.
    + eexists e, [_; _]. split; reflexivity.
    + eexists e, [_; _]. split; reflexivity.
Qed.

Lemma server_errors_are_logged_witness :
  exists before,
    (Server1.create_order Sample.env (Sample.world (Thrown unauthorized))
       Sample.order).2
    = (before ++ [Console error
                    [VStr "create-order error:";
                     VObj [("reason", VStr "bad signature")]]])%list /\
    sent_field
      (Server1.create_order Sample.env (Sample.world (Thrown unauthorized))
         Sample.order).1 "details"
    = VStr "Request failed with status code 401".
Proof.
  destruct (server_errors_are_logged Sample.env
              (Sample.world (Thrown unauthorized)) Sample.order)
    as [[Hlogged _] _].
  destruct (Hlogged eq_refl) as (e & before & Hdetails & Htrace).
  assert (He : message e = "Request failed with status code 401")
    by (injection Hdetails as <-; reflexivity).
  exists before. split.
  - rewrite Htrace. repeat f_equal.
    apply (f_equal (fun t => List.last t (Console log []))) in Htrace.
    rewrite List.last_last in Htrace. simpl in Htrace.
    injection Htrace as Hlog. rewrite <- Hlog. reflexivity.
  - reflexivity.
Defined.

(** ** How often the collaborators are called *)

(** X7.  One run of create-order or of status-check asks the checksum
    library for at most one signature, sends at most one request to the
    gateway and verifies nothing; one run of a callback route verifies at
    most once, signs nothing and sends nothing to the gateway. *)
Theorem collaborators_called_at_most_once
    (env : Env) (w : World) (req : Request) :
  ((occurrences is_sign (Server1.create_order env w req).2 <= 1)%nat /\
   (occurrences is_post (Server1.create_order env w req).2 <= 1)%nat /\
   occurrences is_verify (Server1.create_order env w req).2 = 0%nat) /\
  ((occurrences is_sign (Server1.status_check env w req).2 <= 1)%nat /\
   (occurrences is_post (Server1.status_check env w req).2 <= 1)%nat /\
   occurrences is_verify (Server1.status_check env w req).2 = 0%nat) /\
  ((occurrences is_verify (Server1.callback env w req).2 <= 1)%nat /\
   occurrences is_sign (Server1.callback env w req).2 = 0%nat /\
   occurrences is_post (Server1.callback env w req).2 = 0%nat) /\
  ((occurrences is_verify (Server2.callback env w req).2 <= 1)%nat /\
   occurrences is_sign (Server2.callback env w req).2 = 0%nat /\
   occurrences is_post (Server2.callback env w req).2 = 0%nat).
Proof.
  repeat apply conj.
  1-3: pose proof (create_order_runs env w req) as Hrun;
       destruct (Server1.create_order env w req) as [res trace];
       invert_run; unfold occurrences; simpl; lia.
  1-3: pose proof (status_check_runs env w req) as Hrun;
       destruct (Server1.status_check env w req) as [res trace];
       invert_run; unfold occurrences; simpl; lia.
  1-3: rewrite callback1_run; cbv zeta;
       destruct (truthy (received_checksum req));
       [destruct (verdict env w req) as [[]|]|];
       unfold occurrences; simpl; lia.
  1-3: rewrite callback2_run; cbv zeta;
       destruct (truthy (received_checksum req));
       [destruct (verdict env w req) as [[]|]|];
       unfold occurrences; simpl; lia.
Qed.

(** ** The answers the routes can give *)

(** X8.  create-order and status-check answer 200, 400 or 500; an answer
    of 400 or 500 carries an error text and an answer of 200 carries
    none. *)
Theorem json_routes_answer_shape (env : Env) (w : World) (req : Request) :
  (let res := (Server1.create_order env w req).1 in
   (status res = 200 /\ sent_field res "error" = VUndef) \/
   ((status res = 400 \/ status res = 500) /\
    nonempty_string (sent_field res "error") = true)) /\
  (let res := (Server1.status_check env w req).1 in
   (status res = 200 /\ sent_field res "error" = VUndef) \/
   ((status res = 400 \/ status res = 500) /\
    nonempty_string (sent_field res "error") = true)).
Proof.
  cbv zeta. split.
  - pose proof (create_order_runs env w req) as Hrun.
    destruct (Server1.create_order env w req) as [res trace]. simpl.
    invert_run; simpl; auto.
  - pose proof (status_check_runs env w req) as Hrun.
    destruct (Server1.status_check env w req) as [res trace]. simpl.
    invert_run; simpl; auto.
Qed.

(** X9.  Whatever the payload, a callback route answers with one of three
    fixed texts: its acknowledgment (200), ["Checksum mismatched"] (400) or
    ["Internal Server Error"] (500).  Nothing of the payload, or of an error
    the verifier raised, is sent back. *)
Theorem callback_answers_are_fixed (env : Env) (w : World) (req : Request) :
  (Server1.callback env w req).1
  ∈ callback_answers
      "Paytm callback received. You can close this window and return to the app."
  /\
  (Server2.callback env w req).1
  ∈ callback_answers "Callback received. Please wait while we verify payment.".
Proof.
  rewrite callback1_run, callback2_run. cbv zeta. unfold callback_answers.
  destruct (truthy (received_checksum req));
    [destruct (verdict env w req) as [[]|]|]; simpl;
    split; auto using list_elem_of_here, list_elem_of_further.
Qed.

(** ** What the verifier is shown *)

Lemma own_delete_prop_eq (o : Obj) (k : string) : own (delete_prop o k) k = None.
Proof.
  unfold delete_prop. induction o as [|[k0 v] o IH]; [reflexivity|].
  rewrite filter_cons. simpl. destruct (String.eqb_spec k0 k) as [->|Hne].
  - simpl. exact IH.
  - simpl. apply String.eqb_neq in Hne. rewrite Hne. exact IH.
Qed.

Lemma own_delete_prop_ne (o : Obj) (k f : string) :
  f <> k -> own (delete_prop o k) f = own o f.
Proof.
  intros Hf. unfold delete_prop. induction o as [|[k0 v] o IH]; [reflexivity|].
  rewrite filter_cons. simpl. destruct (String.eqb_spec k0 k) as [->|Hne].
  - simpl. apply not_eq_sym, String.eqb_neq in Hf. rewrite Hf. exact IH.
  - simpl. rewrite IH. reflexivity.
Qed.

(** X10.  In both callback variants, what the verifier is asked about is
    the received payload with the [CHECKSUMHASH] field taken out and every
    other field as it came, next to the configured key and the truthy
    [CHECKSUMHASH] value that was taken out. *)
Theorem verifier_sees_payload_without_checksum
    (env : Env) (w : World) (req : Request) :
  forall p k c out,
    VerifySignature p k c out ∈ (Server1.callback env w req).2 \/
    VerifySignature p k c out ∈ (Server2.callback env w req).2 ->
    own p "CHECKSUMHASH" = None /\
    (forall f, f <> "CHECKSUMHASH" -> own p f = own (body req) f) /\
    c = field (body req) "CHECKSUMHASH" /\
    truthy c = true /\
    k = env !! "PAYTM_MERCHANT_KEY".
Proof.
  intros p k c out. rewrite callback1_run, callback2_run. cbv zeta.
  unfold verification, remaining_fields.
  destruct (truthy (received_checksum req)) eqn:Hc;
    [destruct (verdict env w req) as [[]|]|]; simpl.
  all: intros [Hin|Hin]; trace_mem.
  all: repeat split;
    [apply own_delete_prop_eq
    |intros f Hf; apply own_delete_prop_ne; exact Hf
    |exact Hc].
Qed.

Lemma verifier_sees_payload_without_checksum_witness :
  VerifySignature [("ORDERID", VStr "ORDER_1")] (Some "0123456789abcdef")
    (VStr "good") (Ok true)
  ∈ (Server1.callback Sample.env
       (Sample.world (Sample.accepted (VStr "TOK123")))
       {| body := [("ORDERID", VStr "ORDER_1");
                   ("CHECKSUMHASH", VStr "good")] |}).2 /\
  truthy (VStr "good") = true.
Proof.
  assert (Hin : VerifySignature [("ORDERID", VStr "ORDER_1")]
                  (Some "0123456789abcdef") (VStr "good") (Ok true)
                ∈ (Server1.callback Sample.env
                     (Sample.world (Sample.accepted (VStr "TOK123")))
                     {| body := [("ORDERID", VStr "ORDER_1");
                                 ("CHECKSUMHASH", VStr "good")] |}).2)
    by exact (list_elem_of_further _ _ _ (list_elem_of_here _ _)).
  split; [exact Hin|].
  destruct (verifier_sees_payload_without_checksum Sample.env
              (Sample.world (Sample.accepted (VStr "TOK123")))
              {| body := [("ORDERID", VStr "ORDER_1");
                          ("CHECKSUMHASH", VStr "good")] |}
              _ _ _ _ (or_introl Hin)) as (_ & _ & _ & Htruthy & _).
  exact Htruthy.
Defined.

(** ** The second server *)



(** ** What the routes read of the environment *)

(** X12.  The routes read five variables of the environment
    ([PAYTM_MID], [PAYTM_MERCHANT_KEY], [PAYTM_WEBSITE],
    [PAYTM_CALLBACK_URL], [PAYTM_ENVIRONMENT]).  Two environments that agree
    on them give the same runs: the industry type, the channel and the port
    change nothing in what a route answers or does. *)
Theorem routes_read_five_variables
    (env1 env2 : Env) (w : World) (req : Request) :
  (forall v, v ∈ route_variables -> env1 !! v = env2 !! v) ->
  Server1.create_order env1 w req = Server1.create_order env2 w req /\
  Server1.status_check env1 w req = Server1.status_check env2 w req /\
  Server1.callback env1 w req = Server1.callback env2 w req /\
  Server2.callback env1 w req = Server2.callback env2 w req.
Proof.
  intros Hagree.
  assert (Hmid : env1 !! "PAYTM_MID" = env2 !! "PAYTM_MID")
    by (apply Hagree; unfold route_variables; repeat constructor).
  assert (Hkey : env1 !! "PAYTM_MERCHANT_KEY" = env2 !! "PAYTM_MERCHANT_KEY")
    by (apply Hagree; unfold route_variables; repeat constructor).
  assert (Hweb : env1 !! "PAYTM_WEBSITE" = env2 !! "PAYTM_WEBSITE")
    by (apply Hagree; unfold route_variables; repeat constructor).
  assert (Hcb : env1 !! "PAYTM_CALLBACK_URL" = env2 !! "PAYTM_CALLBACK_URL")
    by (apply Hagree; unfold route_variables; repeat constructor).
  assert (Henv : env1 !! "PAYTM_ENVIRONMENT" = env2 !! "PAYTM_ENVIRONMENT")
    by (apply Hagree; unfold route_variables; repeat constructor).
  unfold Server1.create_order, Server1.status_check, Server1.callback,
    Server2.callback, paytmConfig.
  cbn [mid key website callbackUrl host].
  rewrite Hmid, Hkey, Hweb, Hcb, Henv.
  repeat split; reflexivity.
Qed.

Lemma routes_read_five_variables_witness :
  Server1.create_order
    (<["PAYTM_INDUSTRY_TYPE_ID" := "Retail109"]>
       (<["PAYTM_CHANNEL_ID" := "WAP"]> (<["PORT" := "8080"]> Sample.env)))
    (Sample.world (Sample.accepted (VStr "TOK123"))) Sample.order
  = Server1.create_order Sample.env
      (Sample.world (Sample.accepted (VStr "TOK123"))) Sample.order.
Proof.
  refine (proj1 (routes_read_five_variables _ _ _ _ _)).
  intros v Hv. unfold route_variables in Hv.
  repeat (apply elem_of_cons in Hv; destruct Hv as [->|Hv]);
    try (apply elem_of_nil in Hv; destruct Hv).
  all: rewrite !lookup_insert_ne by discriminate; reflexivity.
Defined.

(** ** What status-check passes on *)

(** X13.  status-check asks the gateway's status endpoint about the order
    identifier of the request, next to the merchant id of [PAYTM_MID], and
    on success hands the caller that identifier and the gateway's body and
    result-info as they came. *)
Theorem status_check_passes_on (env : Env) (w : World) (req : Request) :
  forall url p c out,
    AxiosPost url p c out ∈ (Server1.status_check env w req).2 ->
    url = host (paytmConfig env) +:+ "/v3/order/status" /\
    get_opt p "body"
    = VObj [("mid", js_of_env (env !! "PAYTM_MID"));
            ("orderId", field (body req) "orderId")] /\
    (status (Server1.status_check env w req).1 = 200 ->
     exists r,
       out = Ok r /\
       sent_field (Server1.status_check env w req).1 "orderId"
       = field (body req) "orderId" /\
       sent_field (Server1.status_check env w req).1 "resultInfo"
       = get_opt (get_opt (data r) "body") "resultInfo" /\
       sent_field (Server1.status_check env w req).1 "paytmResponse"
       = get_opt (data r) "body").
Proof.
  intros url p c out.
  pose proof (status_check_runs env w req) as Hrun.
  destruct (Server1.status_check env w req) as [res trace]. simpl.
  intros Hin. invert_run; trace_mem.
  all: repeat split; try (simpl; intros; discriminate).
  intros _. eexists. split; [symmetry; eassumption|]. repeat split.
Qed.

Lemma status_check_passes_on_witness :
  sent_field
    (Server1.status_check Sample.env
       (Sample.world (status_reports "PENDING")) status_request).1
    "paytmResponse"
  = VObj [("resultInfo", VObj [("resultStatus", VStr "PENDING")])].
Proof.
  destruct (status_check_passes_on Sample.env
              (Sample.world (status_reports "PENDING")) status_request
              _ _ _ _ (list_elem_of_further _ _ _ (list_elem_of_here _ _)))
    as (_ & _ & Hok).
  destruct (Hok eq_refl) as (r & Hr & _ & _ & Hbody).
  injection Hr as <-. exact Hbody.
Defined.

(** ** Inputs that cannot be printed *)

(** X14.  An amount that is an object with a property named [toString]
    cannot be turned into a string: create-order answers 500 with
    ["amount.toString is not a function"], after logging it, without signing
    or calling the gateway.  The same holds for such a customer identifier
    when the amount is a number, a string or a boolean. *)
Theorem unprintable_input_is_server_error (env : Env) (w : World) (req : Request) :
  (forall o,
     field (body req) "amount" = VObj o ->
     own o "toString" <> None ->
     truthy (field (body req) "customerId") = true ->
     Server1.create_order env w req
     = (res_json 500
          (VObj [("error", VStr "Something went wrong while creating order");
                 ("details", VStr "amount.toString is not a function")]),
        [Console error [VStr "create-order error:";
                        VStr "amount.toString is not a function"]])) /\
  (forall o,
     truthy (field (body req) "amount") = true ->
     is_primitive (field (body req) "amount") = true ->
     field (body req) "customerId" = VObj o ->
     own o "toString" <> None ->
     Server1.create_order env w req
     = (res_json 500
          (VObj [("error", VStr "Something went wrong while creating order");
                 ("details", VStr "customerId.toString is not a function")]),
        [Console error [VStr "create-order error:";
                        VStr "customerId.toString is not a function"]])).
Proof.
  split.
  - intros o Ha Ho Hc. unfold Server1.create_order. rewrite Ha, Hc. simpl.
    destruct (own o "toString"); [reflexivity|congruence].
  - intros o Ht Hp Hc Ho. unfold Server1.create_order. rewrite Hc, Ht.
    destruct (field (body req) "amount") as [| |b|n|s|l|o']; try discriminate Hp;
      simpl; (destruct (own o "toString"); [reflexivity|congruence]).
Qed.

Lemma unprintable_input_is_server_error_witness :
  status
    (Server1.create_order Sample.env
       (Sample.world (Sample.accepted (VStr "TOK123")))
       {| body := [("amount", VObj [("toString", VNum 1)]);
                   ("customerId", VStr "cust1")] |}).1
  = 500.
Proof.
  destruct (unprintable_input_is_server_error Sample.env
              (Sample.world (Sample.accepted (VStr "TOK123")))
              {| body := [("amount", VObj [("toString", VNum 1)]);
                          ("customerId", VStr "cust1")] |}) as [Hamount _].
  rewrite (Hamount [("toString", VNum 1)] eq_refl
             ltac:(discriminate) eq_refl).
  reflexivity.
Defined.



(** ** Which gateway is called *)

Lemma create_order_posts env w req url p c out :
  AxiosPost url p c out ∈ (Server1.create_order env w req).2 ->
  exists value custId sig,
    url = initiate_url env w /\
    p = envelope (initiate_params env w value custId) sig.
Proof.
  pose proof (create_order_runs env w req) as Hrun.
  destruct (Server1.create_order env w req) as [res trace]. simpl.
  intros Hin. invert_run; trace_mem; do 3 eexists; split; reflexivity.
Qed.

Lemma status_check_posts env w req url p c out :
  AxiosPost url p c out ∈ (Server1.status_check env w req).2 ->
  exists sig, url = status_url env /\ p = envelope (status_query env req) sig.
Proof.
  pose proof (status_check_runs env w req) as Hrun.
  destruct (Server1.status_check env w req) as [res trace]. simpl.
  intros Hin. invert_run; trace_mem; eexists; split; reflexivity.
Qed.

(** X16.  Every request of create-order and of status-check goes to the
    production gateway when [PAYTM_ENVIRONMENT] is exactly ["PROD"], and to
    the staging gateway in every other case, the variable being unset
    included. *)
Theorem gateway_host_by_environment (env : Env) (w : World) (req : Request) :
  forall url p c out,
    AxiosPost url p c out ∈ (Server1.create_order env w req).2 \/
    AxiosPost url p c out ∈ (Server1.status_check env w req).2 ->
    if bool_decide (env !! "PAYTM_ENVIRONMENT" = Some "PROD")
    then String.prefix "https://securegw.paytm.in/" url = true
    else String.prefix "https://securegw-stage.paytm.in/" url = true.
Proof.
  intros url p c out [Hin|Hin].
  - destruct (create_order_posts env w req url p c out Hin)
      as (value & custId & sig & -> & _).
    unfold initiate_url, paytmConfig; cbn [host].
    case_bool_decide; reflexivity.
  - destruct (status_check_posts env w req url p c out Hin) as (sig & -> & _).
    unfold status_url, paytmConfig; cbn [host].
    case_bool_decide; reflexivity.
Qed.

Lemma gateway_host_by_environment_witness :
  String.prefix "https://securegw-stage.paytm.in/"
    "https://securegw-stage.paytm.in/v3/order/status"
  = true.
Proof.
  exact (gateway_host_by_environment Sample.env
           (Sample.world (status_reports "PENDING")) status_request
           _ _ _ _
           (or_intror (list_elem_of_further _ _ _ (list_elem_of_here _ _)))).
Defined.

(** X17.  create-order does not check the configuration.  With [PAYTM_MID]
    unset, a request whose inputs are present is still sent: the URL reads
    [mid=undefined] and the body it signs has no merchant id. *)
Theorem unset_merchant_id_is_sent_as_undefined
    (env : Env) (w : World) (req : Request) :
  env !! "PAYTM_MID" = None ->
  forall url p c out,
    AxiosPost url p c out ∈ (Server1.create_order env w req).2 ->
    url = host (paytmConfig env)
          +:+ "/theia/api/v1/initiateTransaction?mid=undefined&orderId="
          +:+ Server1.generateOrderId w /\
    get_opt (get_opt p "body") "mid" = VUndef.
Proof.
  intros Hmid url p c out Hin.
  destruct (create_order_posts env w req url p c out Hin)
    as (value & custId & sig & -> & ->).
  unfold initiate_url, initiate_params, envelope, paytmConfig.
  cbn [mid host]. rewrite Hmid. simpl.
  split; reflexivity.
Qed.

Lemma unset_merchant_id_is_sent_as_undefined_witness :
  exists url p c out,
    AxiosPost url p c out
    ∈ (Server1.create_order (delete "PAYTM_MID" Sample.env)
         (Sample.world (Sample.accepted (VStr "TOK123"))) Sample.order).2 /\
    url = "https://securegw-stage.paytm.in"
          +:+ "/theia/api/v1/initiateTransaction?mid=undefined&orderId="
          +:+ "ORDER_1700000000000_123" /\
    get_opt (get_opt p "body") "mid" = VUndef.
Proof.
  pose proof (unset_merchant_id_is_sent_as_undefined
                (delete "PAYTM_MID" Sample.env)
                (Sample.world (Sample.accepted (VStr "TOK123")))
                Sample.order (lookup_delete_eq _ _) _ _ _ _
                (list_elem_of_further _ _ _ (list_elem_of_here _ _)))
    as [Hurl Hmid].
  do 4 eexists. split; [|split; [exact Hurl|exact Hmid]].
  exact (list_elem_of_further _ _ _ (list_elem_of_here _ _)).
Defined.
